(** * Commit-Copilot: the [generate] orchestration pipeline of
      [src/auto_commit/cli.py]

    The command-line front end is embedded as a computation in a small
    writer-and-exception monad.  Everything the pipeline asks of the outside
    (the git adapter, the credential module, the LLM client, the terminal
    user) is answered by a [World]; everything it does to the outside is
    recorded, in order, in a trace of [Event]s. *)

From Stdlib Require Import String List ZArith Bool Lia.
From Stdlib Require Import Sorted.
Import ListNotations.
Open Scope string_scope.

(** ** Exit codes (cli.py, lines 24-33) *)

Definition EXIT_SUCCESS : Z := 0.
Definition EXIT_NOT_GIT_REPO : Z := 1.
Definition EXIT_STAGE_FAILED : Z := 2.
Definition EXIT_NO_CHANGES : Z := 3.
Definition EXIT_API_KEY_MISSING : Z := 10.
Definition EXIT_API_KEY_INVALID : Z := 11.
Definition EXIT_QUOTA_EXCEEDED : Z := 12.
Definition EXIT_API_ERROR : Z := 13.
Definition EXIT_COMMIT_FAILED : Z := 20.
Definition EXIT_UNKNOWN_ERROR : Z := 99.

(** ** Python values and exceptions *)

Module Py.

(** Truth value of a [str]: only the empty string is falsy. *)
Definition truthy_str (s : string) : bool :=
  match s with
  | EmptyString => false
  | String _ _ => true
  end.

(** Truth value of an [Optional[str]]: [None] and the empty string are
    falsy. *)
Definition truthy (o : option string) : bool :=
  match o with
  | None => false
  | Some s => truthy_str s
  end.

(** Rendering of an [Optional[str]] inside an f-string. *)
Definition fmt (o : option string) : string :=
  match o with
  | None => "None"
  | Some s => s
  end.

(** The exception classes imported from [auto_commit.llm_client]. *)
Inductive LLMErrorClass : Type :=
| APIKeyMissingError
| APIKeyInvalidError
| APIQuotaExceededError
| APIRequestError
| LLMClientError.

(** Exceptions that can travel through [generate]: an error of the LLM
    client (with its [str(e)] and its [error_code] attribute),
    [typer.Exit(code)], or some other [Exception]. *)
Inductive exn : Type :=
| LLMError (cls : LLMErrorClass) (str : string) (error_code : option string)
| Exit (code : Z)
| Exception (str : string).

(** The classes named by the [except] clauses of [generate]. *)
Inductive ExceptClass : Type :=
| ExLLM (cls : LLMErrorClass)
| ExTyperExit
| ExException.

Definition LLMErrorClass_eqb (a b : LLMErrorClass) : bool :=
  match a, b with
  | APIKeyMissingError, APIKeyMissingError
  | APIKeyInvalidError, APIKeyInvalidError
  | APIQuotaExceededError, APIQuotaExceededError
  | APIRequestError, APIRequestError
  | LLMClientError, LLMClientError => true
  | _, _ => false
  end.

(** Modelled from the spec: the class hierarchy of
    [auto_commit/llm_client.py], which is not among the sources.  The four
    specific kinds derive from the catch-all [LLMClientError]; none derives
    from another. *)
Definition issubclass (a b : LLMErrorClass) : bool :=
  match b with
  | LLMClientError => true
  | _ => LLMErrorClass_eqb a b
  end.

(** [isinstance(e, C)].  [LLMClientError] derives from [Exception], and so
    does [typer.Exit] (click's [Exit] is a [RuntimeError]). *)
Definition isinstance (e : exn) (c : ExceptClass) : bool :=
  match e, c with
  | LLMError k _ _, ExLLM k' => issubclass k k'
  | Exit _, ExTyperExit => true
  | _, ExException => true
  | _, _ => false
  end.

Definition str (e : exn) : string :=
  match e with
  | LLMError _ s _ => s
  | Exit _ => EmptyString
  | Exception s => s
  end.

Definition error_code (e : exn) : option string :=
  match e with
  | LLMError _ _ c => c
  | _ => None
  end.

(** Result of running a piece of Python: a value or a raised exception. *)
Inductive Outcome (A : Type) : Type :=
| Returned (a : A)
| Raised (e : exn).
Arguments Returned {A} a.
Arguments Raised {A} e.

End Py.
Import Py.

(** ** The outside world *)

(** The two output streams of the process. *)
Inductive Stream : Type := Stdout | Stderr.

(** What a rich console is asked to render. *)
Inductive Renderable : Type :=
| Markup (text : string)
| Panel (body title border_style : string).

(** Observable actions of the program, in the order they happen. *)
Inductive Event : Type :=
| Print (text : string)
| ConsolePrint (file : Stream) (r : Renderable)
| ConsoleStatus (file : Stream) (text : string)
| PromptAsk (file : Stream) (prompt : string) (password : bool)
| ConfirmAsk (file : Stream) (prompt : string)
| Call_is_git_repo
| Call_stage_all_changes
| Call_get_git_diff (staged : bool)
| Call_save_key_to_env (key_name value : string)
| Call_LLMClient (provider : string) (model api_key : option string)
| Call_generate_commit_message (diff : string)
| Call_commit_changes (message : string).

Definition Trace : Type := list Event.

(** The stream an event writes to, if it writes at all.  The built-in
    [print] writes its argument, as one line, to standard output. *)
Definition stream_of (ev : Event) : option Stream :=
  match ev with
  | Print _ => Some Stdout
  | ConsolePrint f _ => Some f
  | ConsoleStatus f _ => Some f
  | PromptAsk f _ _ => Some f
  | ConfirmAsk f _ => Some f
  | _ => None
  end.

Definition writes_stdout (ev : Event) : bool :=
  match stream_of ev with
  | Some Stdout => true
  | _ => false
  end.

(** Everything written to standard output during a run. *)
Definition stdout_of (tr : Trace) : Trace := filter writes_stdout tr.

Definition is_prompt (ev : Event) : bool :=
  match ev with PromptAsk _ _ _ => true | _ => false end.

Definition is_confirm (ev : Event) : bool :=
  match ev with ConfirmAsk _ _ => true | _ => false end.

Definition is_commit (ev : Event) : bool :=
  match ev with Call_commit_changes _ => true | _ => false end.

Definition is_backend (ev : Event) : bool :=
  match ev with
  | Call_LLMClient _ _ _ | Call_generate_commit_message _ => true
  | _ => false
  end.

Definition is_save_key (ev : Event) : bool :=
  match ev with Call_save_key_to_env _ _ => true | _ => false end.

(** Number of events of a given sort in a trace. *)
Definition count (p : Event -> bool) (tr : Trace) : nat :=
  length (filter p tr).

(** The collaborators imported by [cli.py] whose code is not among the
    sources, as the answers they give.  [generate] puts each question at most
    once per run, so one answer per question describes a whole run. *)
Record World : Type := {
  (** git_ops: what [is_git_repo()], [stage_all_changes()],
      [get_git_diff(staged)] and [commit_changes(message)] return *)
  repo_valid : bool;
  stage_ok : bool;
  diff_of : bool -> string;
  commit_ok : string -> bool;
  (** config: the module constant, and what [save_key_to_env(name, value)]
      returns *)
  GEMINI_API_KEY : option string;
  persist_ok : string -> string -> bool;
  (** llm_client: the exception raised by the constructor
      [LLMClient(provider, model, api_key)], if any, and what
      [generate_commit_message(diff)] does on a client so constructed *)
  client_init : string -> option string -> option string -> option exn;
  client_reply :
    string -> option string -> option string -> string -> Outcome string;
  (** the user at the terminal: the entry at a [Prompt.ask] and the answer
      to a [Confirm.ask] *)
  prompt_reply : string -> string;
  confirm_reply : string -> bool
}.

(** ** The monad: a trace writer with Python exceptions *)

Definition M (A : Type) : Type := (Outcome A * Trace)%type.

Definition ret {A : Type} (a : A) : M A := (Returned a, []).

Definition bind {A B : Type} (m : M A) (k : A -> M B) : M B :=
  match m with
  | (Returned a, t) => let (o, t') := k a in (o, (t ++ t')%list)
  | (Raised e, t) => (Raised e, t)
  end.

Definition raise {A : Type} (e : exn) : M A := (Raised e, []).

Definition emit (ev : Event) : M unit := (Returned tt, [ev]).

Notation "x <- m ;; k" := (bind m (fun x => k))
  (at level 61, m at next level, right associativity).
Notation "m ;; k" := (bind m (fun _ => k))
  (at level 61, right associativity).

(** An [if] without [else]. *)
Definition when (b : bool) (m : M unit) : M unit :=
  if b then m else ret tt.

(** The [except] clauses of a [try] statement: the first clause whose class
    the exception is an instance of handles it; an exception raised by a
    handler is not offered to the later clauses. *)
Fixpoint except {A : Type} (clauses : list (ExceptClass * (exn -> M A)))
    (e : exn) : M A :=
  match clauses with
  | [] => raise e
  | (c, h) :: rest => if isinstance e c then h e else except rest e
  end.

Definition try_except {A : Type} (body : M A)
    (clauses : list (ExceptClass * (exn -> M A))) : M A :=
  match body with
  | (Returned a, t) => (Returned a, t)
  | (Raised e, t) => let (o, t') := except clauses e in (o, (t ++ t')%list)
  end.

(** ** rich's console *)

Record Console : Type := { stderr : bool }.

Definition file (c : Console) : Stream :=
  if stderr c then Stderr else Stdout.

Definition console_print (c : Console) (r : Renderable) : M unit :=
  emit (ConsolePrint (file c) r).

(** [with c.status(text): body]: the spinner is shown on the console's
    stream while the body runs. *)
Definition with_status {A : Type} (c : Console) (text : string) (body : M A)
    : M A :=
  emit (ConsoleStatus (file c) text) ;; body.

(** cli.py, line 39 *)
Definition console : Console := {| stderr := true |}.

(** cli.py, lines 42-45 *)
Definition print_error (message : string) (error_code : option string)
    : M unit :=
  let code_prefix :=
    if truthy error_code then "[" ++ fmt error_code ++ "] " else EmptyString in
  console_print console
    (Markup ("[bold red]Error:[/bold red] " ++ code_prefix ++ message)).

(** ** The orchestrator *)

(** An [LLMClient] object: the arguments it was constructed with. *)
Record Client : Type := {
  client_provider : string;
  client_model : option string;
  client_api_key : option string
}.

Section Orchestrator.

Variable w : World.

(** *** The imported operations, answered by the world *)

Definition is_git_repo : M bool :=
  emit Call_is_git_repo ;; ret (repo_valid w).

Definition stage_all_changes : M bool :=
  emit Call_stage_all_changes ;; ret (stage_ok w).

Definition get_git_diff (staged : bool) : M string :=
  emit (Call_get_git_diff staged) ;; ret (diff_of w staged).

Definition commit_changes (message : string) : M bool :=
  emit (Call_commit_changes message) ;; ret (commit_ok w message).

(** Modelled from the spec: [save_key_to_env] of [auto_commit/config.py],
    which is not among the sources; it reports success as a boolean and does
    not raise. *)
Definition save_key_to_env (key_name value : string) : M bool :=
  emit (Call_save_key_to_env key_name value) ;; ret (persist_ok w key_name value).

Definition LLMClient (provider : string) (model api_key : option string)
    : M Client :=
  emit (Call_LLMClient provider model api_key) ;;
  match client_init w provider model api_key with
  | Some e => raise e
  | None => ret {| client_provider := provider;
                   client_model := model;
                   client_api_key := api_key |}
  end.

Definition generate_commit_message (client : Client) (diff : string)
    : M string :=
  emit (Call_generate_commit_message diff) ;;
  match client_reply w (client_provider client) (client_model client)
          (client_api_key client) diff with
  | Returned message => ret message
  | Raised e => raise e
  end.

(** [Prompt.ask(prompt, password=..., console=c)] and
    [Confirm.ask(prompt, console=c)]: the question is shown on the console's
    stream and the user's answer is returned. *)
Definition Prompt_ask (prompt : string) (password : bool) (c : Console)
    : M string :=
  emit (PromptAsk (file c) prompt password) ;; ret (prompt_reply w prompt).

Definition Confirm_ask (prompt : string) (c : Console) : M bool :=
  emit (ConfirmAsk (file c) prompt) ;; ret (confirm_reply w prompt).

(** The built-in [print]. *)
Definition print (text : string) : M unit := emit (Print text).

(** *** [generate] (cli.py, lines 48-196) *)

Definition generate (provider : string) (model : option string)
    (yes staged print_only : bool) : M unit :=
  (* Check if we're in a git repository *)
  in_repo <- is_git_repo ;;
  when (negb in_repo)
    (print_error
       "Not a git repository. Please run this command inside a git repository."
       (Some "NOT_GIT_REPO") ;;
     raise (Exit EXIT_NOT_GIT_REPO)) ;;
  (* Stage all changes *)
  (if negb print_only then
     with_status console "[bold green]Staging all changes...[/bold green]"
       (ok <- stage_all_changes ;;
        when (negb ok)
          (print_error "Failed to stage changes." (Some "STAGE_FAILED") ;;
           raise (Exit EXIT_STAGE_FAILED)))
   else
     ok <- stage_all_changes ;;
     when (negb ok)
       (print_error "Failed to stage changes." (Some "STAGE_FAILED") ;;
        raise (Exit EXIT_STAGE_FAILED))) ;;
  (* Read staged changes *)
  diff <- (if negb print_only then
             with_status console
               "[bold green]Reading staged changes...[/bold green]"
               (get_git_diff true)
           else get_git_diff true) ;;
  when (negb (truthy_str diff))
    (print_error
       "No changes found. Make sure you have modified files in the repository."
       (Some "NO_CHANGES") ;;
     raise (Exit EXIT_NO_CHANGES)) ;;
  (* Validate provider *)
  when (negb (provider =? "gemini"))
    (print_error
       ("Provider '" ++ provider ++ "' is not supported. Use 'gemini'.")
       (Some "UNSUPPORTED_PROVIDER") ;;
     raise (Exit EXIT_UNKNOWN_ERROR)) ;;
  (* Get API Key - NO interactive prompt in print_only mode *)
  let key_name := "GEMINI_API_KEY" in
  current_key <-
    (let current_key := GEMINI_API_KEY w in
     if negb (truthy current_key) then
       if print_only then
         print_error
           (key_name ++ " is not set. Please set the environment variable or configure it in VS Code.")
           (Some "API_KEY_MISSING") ;;
         raise (Exit EXIT_API_KEY_MISSING)
       else
         console_print console
           (Markup ("[yellow]Missing " ++ key_name ++ ".[/yellow]")) ;;
         entered <- Prompt_ask ("Please enter your " ++ provider ++ " API Key")
                      true console ;;
         if truthy_str entered then
           save_key_to_env key_name entered ;;
           console_print console
             (Markup "[green]API Key saved successfully to .env[/green]") ;;
           ret (Some entered)
         else
           print_error (key_name ++ " is required to use " ++ provider ++ ".")
             (Some "API_KEY_MISSING") ;;
           raise (Exit EXIT_API_KEY_MISSING)
     else ret current_key) ;;
  (* Generate commit message *)
  try_except
    (if print_only then
       client <- LLMClient provider model current_key ;;
       message <- generate_commit_message client diff ;;
       print message
     else
       message <-
         with_status console
           ("[bold green]Generating commit message with " ++ provider
              ++ "...[/bold green]")
           (client <- LLMClient provider model current_key ;;
            generate_commit_message client diff) ;;
       console_print console
         (Panel message "Generated Commit Message" "green") ;;
       should_commit <-
         (if yes then ret true
          else Confirm_ask "Do you want to commit with this message?" console) ;;
       if should_commit then
         committed <- commit_changes message ;;
         if committed then
           console_print console
             (Markup "[bold green]Success![/bold green] Changes committed.")
         else
           print_error "Failed to commit changes." (Some "COMMIT_FAILED") ;;
           raise (Exit EXIT_COMMIT_FAILED)
       else
         console_print console (Markup "[yellow]Operation aborted.[/yellow]"))
    [ (ExLLM APIKeyMissingError,
        fun e => print_error (str e) (error_code e) ;;
                 raise (Exit EXIT_API_KEY_MISSING));
      (ExLLM APIKeyInvalidError,
        fun e => print_error (str e) (error_code e) ;;
                 raise (Exit EXIT_API_KEY_INVALID));
      (ExLLM APIQuotaExceededError,
        fun e => print_error (str e) (error_code e) ;;
                 raise (Exit EXIT_QUOTA_EXCEEDED));
      (ExLLM APIRequestError,
        fun e => print_error (str e) (error_code e) ;;
                 raise (Exit EXIT_API_ERROR));
      (ExLLM LLMClientError,
        fun e => print_error (str e) (error_code e) ;;
                 raise (Exit EXIT_UNKNOWN_ERROR));
      (ExTyperExit, fun e => raise e);
      (ExException,
        fun e => print_error ("Unexpected error: " ++ str e) (Some "UNKNOWN") ;;
                 raise (Exit EXIT_UNKNOWN_ERROR)) ].

(** *** [version] (cli.py, lines 199-202) *)

Definition version : M unit :=
  console_print console (Markup "Auto-Commit v1.0.0").

End Orchestrator.

(** ** Running a command *)

(** The arguments of one invocation of [generate]. *)
Record Args : Type := {
  provider : string;
  model : option string;
  yes : bool;
  staged : bool;
  print_only : bool
}.

Definition run (w : World) (a : Args) : M unit :=
  generate w (provider a) (model a) (yes a) (staged a) (print_only a).

(** The trace a run leaves behind. *)
Definition trace_of {A : Type} (m : M A) : Trace := snd m.

(** The status the process exits with: [typer.Exit(code)] ends it with
    [code], a normal return with 0, and an exception nobody caught ends the
    interpreter with 1. *)
Definition exit_code {A : Type} (m : M A) : Z :=
  match fst m with
  | Returned _ => EXIT_SUCCESS
  | Raised (Exit code) => code
  | Raised _ => 1
  end.

(** Record updates used to compare invocations and worlds. *)
Definition set_staged (b : bool) (a : Args) : Args :=
  {| provider := provider a; model := model a; yes := yes a;
     staged := b; print_only := print_only a |}.

Definition set_persist_ok (f : string -> string -> bool) (w : World) : World :=
  {| repo_valid := repo_valid w; stage_ok := stage_ok w;
     diff_of := diff_of w; commit_ok := commit_ok w;
     GEMINI_API_KEY := GEMINI_API_KEY w; persist_ok := f;
     client_init := client_init w; client_reply := client_reply w;
     prompt_reply := prompt_reply w; confirm_reply := confirm_reply w |}.

(** The questions put to the user. *)
Definition key_prompt (provider : string) : string :=
  "Please enter your " ++ provider ++ " API Key".

Definition confirm_prompt : string :=
  "Do you want to commit with this message?".

(** The run gets as far as credential resolution: the repository check and
    the staging succeed, the staged diff is not empty and the provider is
    the supported one. *)
Definition reaches_credentials (w : World) (a : Args) : Prop :=
  repo_valid w = true /\ stage_ok w = true
  /\ truthy_str (diff_of w true) = true /\ provider a = "gemini".

(** The backend raised [e] during a run with trace [tr]: the constructor
    was called and raised it, or the method was called on the constructed
    client and raised it. *)
Definition backend_raised (w : World) (tr : Trace) (e : exn) : Prop :=
  exists p m k,
    In (Call_LLMClient p m k) tr
    /\ (client_init w p m k = Some e
        \/ (client_init w p m k = None
            /\ exists d, In (Call_generate_commit_message d) tr
                         /\ client_reply w p m k d = Raised e)).

(** The backend produced [message] during a run with trace [tr]. *)
Definition backend_returned (w : World) (tr : Trace) (message : string)
    : Prop :=
  exists p m k d,
    In (Call_LLMClient p m k) tr /\ client_init w p m k = None
    /\ In (Call_generate_commit_message d) tr
    /\ client_reply w p m k d = Returned message.

(** Event [x] happens before event [y] in the trace. *)
Definition before (x y : Event) (tr : Trace) : Prop :=
  exists t1 t2 t3, tr = (t1 ++ x :: t2 ++ y :: t3)%list.


(** No event of sort [p] happens while [m] runs. *)
Definition silent {A : Type} (p : Event -> bool) (m : M A) : Prop :=
  filter p (trace_of m) = [].

(** *** Vocabulary for the whole pipeline *)

Definition set_yes (b : bool) (a : Args) : Args :=
  {| provider := provider a; model := model a; yes := b;
     staged := staged a; print_only := print_only a |}.

Definition is_repo_check (ev : Event) : bool :=
  match ev with Call_is_git_repo => true | _ => false end.

Definition is_stage (ev : Event) : bool :=
  match ev with Call_stage_all_changes => true | _ => false end.

Definition is_diff (ev : Event) : bool :=
  match ev with Call_get_git_diff _ => true | _ => false end.

Definition is_construct (ev : Event) : bool :=
  match ev with Call_LLMClient _ _ _ => true | _ => false end.

Definition is_generate (ev : Event) : bool :=
  match ev with Call_generate_commit_message _ => true | _ => false end.

Definition is_status (ev : Event) : bool :=
  match ev with ConsoleStatus _ _ => true | _ => false end.

Definition is_panel (ev : Event) : bool :=
  match ev with ConsolePrint _ (Panel _ _ _) => true | _ => false end.

(** The opening of every line [print_error] writes. *)
Definition error_label : string := "[bold red]Error:[/bold red] ".

(** [s] opens with [p]. *)
Fixpoint starts_with (p s : string) : bool :=
  match p with
  | EmptyString => true
  | String c p' =>
      match s with
      | EmptyString => false
      | String d s' => Ascii.eqb c d && starts_with p' s'
      end
  end.

(** A line written by [print_error]: markup on the error stream that opens
    with the error label. *)
Definition is_error_line (ev : Event) : bool :=
  match ev with
  | ConsolePrint Stderr (Markup text) => starts_with error_label text
  | _ => false
  end.

(** The last event of a trace. *)
Definition last_event (tr : Trace) : option Event :=
  match rev tr with
  | [] => None
  | ev :: _ => Some ev
  end.

(** The backend does not itself raise [typer.Exit]. *)
Definition backend_never_exits (w : World) : Prop :=
  (forall p m k code, client_init w p m k <> Some (Exit code))
  /\ (forall p m k d code, client_reply w p m k d <> Raised (Exit code)).

(** The exit codes [cli.py] defines (lines 24-33). *)
Definition exit_codes : list Z :=
  [EXIT_SUCCESS; EXIT_NOT_GIT_REPO; EXIT_STAGE_FAILED; EXIT_NO_CHANGES;
   EXIT_API_KEY_MISSING; EXIT_API_KEY_INVALID; EXIT_QUOTA_EXCEEDED;
   EXIT_API_ERROR; EXIT_COMMIT_FAILED; EXIT_UNKNOWN_ERROR].

(** Every external step happens at most once, and the repository check
    exactly once. *)
Definition once_only (tr : Trace) : bool :=
  (count is_repo_check tr =? 1)%nat
  && forallb (fun p => (count p tr <=? 1)%nat)
       [is_stage; is_diff; is_prompt; is_save_key; is_construct; is_generate;
        is_panel; is_confirm; is_commit].

(** The place of a step in the pipeline; diagnostics, notices and spinners
    have none. *)
Definition step_rank (ev : Event) : option nat :=
  match ev with
  | Call_is_git_repo => Some 0
  | Call_stage_all_changes => Some 1
  | Call_get_git_diff _ => Some 2
  | PromptAsk _ _ _ => Some 3
  | Call_save_key_to_env _ _ => Some 4
  | Call_LLMClient _ _ _ => Some 5
  | Call_generate_commit_message _ => Some 6
  | Print _ => Some 7
  | ConsolePrint _ (Panel _ _ _) => Some 7
  | ConfirmAsk _ _ => Some 8
  | Call_commit_changes _ => Some 9
  | _ => None
  end.

Fixpoint ranks (tr : Trace) : list nat :=
  match tr with
  | [] => []
  | ev :: rest =>
      match step_rank ev with
      | Some n => n :: ranks rest
      | None => ranks rest
      end
  end.

Fixpoint increasing (l : list nat) : bool :=
  match l with
  | [] => true
  | n :: rest =>
      match rest with
      | [] => true
      | m :: _ => (n <? m)%nat && increasing rest
      end
  end.

(** The secret-free view of a world: the configured key and the entry at
    the prompt are replaced, and the backend answers as it does in [w] for
    one fixed key, whatever key it is given. *)
Definition keyed (key : option string) (entry : string) (w : World) : World :=
  {| repo_valid := repo_valid w; stage_ok := stage_ok w;
     diff_of := diff_of w; commit_ok := commit_ok w;
     GEMINI_API_KEY := key; persist_ok := persist_ok w;
     client_init := fun p m _ => client_init w p m None;
     client_reply := fun p m _ d => client_reply w p m None d;
     prompt_reply := fun _ => entry; confirm_reply := confirm_reply w |}.

(** What a run shows: the events that write to a stream. *)
Definition outputs (tr : Trace) : Trace :=
  filter (fun ev => match stream_of ev with Some _ => true | None => false end)
    tr.

(** ** Sample worlds and invocations *)

(** A world from the answers that matter: repository and staging status,
    the staged diff, the configured key, the user's entry at the key prompt,
    whether persisting works, what the backend's constructor and method do,
    and whether the user confirms and the commit works. *)
Definition sample_world (repo stage : bool) (diff : string)
    (key : option string) (entry : string) (persist : bool)
    (init : option exn) (reply : Outcome string) (confirm commit : bool)
    : World :=
  {| repo_valid := repo; stage_ok := stage;
     diff_of := fun _ => diff;
     commit_ok := fun _ => commit;
     GEMINI_API_KEY := key;
     persist_ok := fun _ _ => persist;
     client_init := fun _ _ _ => init;
     client_reply := fun _ _ _ _ => reply;
     prompt_reply := fun _ => entry;
     confirm_reply := fun _ => confirm |}.

(** One modified file, a configured key, a backend that answers, a user who
    declines. *)
Definition world_ok : World :=
  sample_world true true "diff --git a/x b/x" (Some "secret") EmptyString
    true None (Returned "feat: add X") false true.

(** The same without a configured key; the user enters nothing. *)
Definition world_no_key : World :=
  sample_world true true "diff --git a/x b/x" None EmptyString
    true None (Returned "feat: add X") false true.

(** No configured key; the user enters one, persisting it fails; the user
    then confirms and the commit fails. *)
Definition world_persist_fails : World :=
  sample_world true true "diff --git a/x b/x" None "entered"
    false None (Returned "feat: add X") true false.

(** The backend reports an exhausted quota. *)
Definition world_quota : World :=
  sample_world true true "diff --git a/x b/x" (Some "secret") EmptyString
    true None
    (Raised (LLMError APIQuotaExceededError "quota exceeded"
               (Some "QUOTA_EXCEEDED")))
    false true.

(** Nothing is modified. *)
Definition world_clean_tree : World :=
  sample_world true true EmptyString (Some "secret") EmptyString
    true None (Returned "feat: add X") false true.

(** The working directory is not inside a repository. *)
Definition world_outside_repo : World :=
  sample_world false false EmptyString (Some "secret") EmptyString
    true None (Returned "feat: add X") false true.

Definition args_default : Args :=
  {| provider := "gemini"; model := None; yes := false; staged := true;
     print_only := false |}.

Definition args_print_only : Args :=
  {| provider := "gemini"; model := None; yes := false; staged := true;
     print_only := true |}.

Definition args_openai : Args :=
  {| provider := "openai"; model := None; yes := false; staged := true;
     print_only := false |}.

(** Staging fails. *)
Definition world_stage_fails : World :=
  sample_world true false "diff --git a/x b/x" (Some "secret") EmptyString
    true None (Returned "feat: add X") false true.

(** The backend fails with an exception of no known class. *)
Definition world_crash : World :=
  sample_world true true "diff --git a/x b/x" (Some "secret") EmptyString
    true None (Raised (Exception "boom")) false true.

(** The accept flag is set. *)
Definition args_yes : Args :=
  {| provider := "gemini"; model := None; yes := true; staged := true;
     print_only := false |}.

(** ** Symbolic execution of a run *)

Ltac unfold_run :=
  unfold run, generate, version, is_git_repo, stage_all_changes, get_git_diff,
    commit_changes, save_key_to_env, LLMClient, generate_commit_message,
    Prompt_ask, Confirm_ask, print, print_error, with_status, console_print,
    when, exit_code, trace_of, stdout_of, count, key_prompt, confirm_prompt
    in *.

(** Decide the innermost test the execution is stuck on: from a hypothesis
    when one settles it, by cases otherwise. *)
Ltac settle x :=
  lazymatch x with
  | negb ?y => settle y
  | context [match _ with _ => _ end] => fail
  | _ =>
      match goal with
      | _ =>
          let v := eval vm_compute in x in
          lazymatch v with true => idtac | false => idtac end;
          change x with v in *
      | H : ?l = _ |- _ =>
          lazymatch l with true => fail | false => fail | _ => idtac end;
          match x with context [l] => rewrite !H in * end
      | _ => destruct x eqn:?
      end
  end.

Ltac branch :=
  match goal with
  | |- context [match ?x with _ => _ end] => settle x
  | H : context [match ?x with _ => _ end] |- _ => settle x
  end.

Ltac exec := repeat (cbn -[String.eqb] in *; try branch).

(** Membership in an explicit trace, by looking. *)
Ltac in_trace := solve [cbn; repeat (first [left; reflexivity | right])].

(** Take apart membership in an explicit trace. *)
Ltac invert_in :=
  repeat match goal with
    | H : False |- _ => destruct H
    | H : @eq Event _ _ \/ _ |- _ => destruct H
    | H : @eq Event _ _ |- _ => discriminate H || (injection H as ?; subst)
    end.

(** Close what is left once a run has been executed to its end. *)
Ltac finish :=
  repeat split; intros;
  try reflexivity; try discriminate; try congruence; try in_trace.

(** ** Events a computation cannot produce *)

Section Silent.

Variable p : Event -> bool.

Lemma silent_ret {A : Type} (a : A) : silent p (ret a).
Proof. reflexivity. Qed.

Lemma silent_raise {A : Type} (e : exn) : silent p (@raise A e).
Proof. reflexivity. Qed.

Lemma silent_emit (ev : Event) : p ev = false -> silent p (emit ev).
Proof. intros H. unfold silent, emit, trace_of. cbn. now rewrite H. Qed.

Lemma silent_bind {A B : Type} (m : M A) (k : A -> M B) :
  silent p m -> (forall x, silent p (k x)) -> silent p (bind m k).
Proof.
  unfold silent, trace_of. destruct m as [[x | e] t]; cbn; intros Hm Hk.
  - specialize (Hk x). destruct (k x) as [o t']. cbn in *.
    now rewrite filter_app, Hm, Hk.
  - exact Hm.
Qed.

Lemma silent_when (b : bool) (m : M unit) :
  silent p m -> silent p (when b m).
Proof. destruct b; [trivial | intros _; apply silent_ret]. Qed.

(** The handlers of a [try] statement are silent when each clause is: by
    induction on the list of clauses. *)
Lemma silent_except {A : Type} (clauses : list (ExceptClass * (exn -> M A))) :
  Forall (fun ch => forall e, silent p (snd ch e)) clauses ->
  forall e, silent p (except clauses e).
Proof.
  induction 1 as [| [c h] rest Hh _ IH]; intros e; cbn.
  - apply silent_raise.
  - destruct (isinstance e c); [apply Hh | apply IH].
Qed.

Lemma silent_try_except {A : Type} (body : M A)
    (clauses : list (ExceptClass * (exn -> M A))) :
  silent p body ->
  Forall (fun ch => forall e, silent p (snd ch e)) clauses ->
  silent p (try_except body clauses).
Proof.
  intros Hbody Hclauses. unfold try_except.
  destruct body as [[x | e] t]; [exact Hbody|].
  pose proof (silent_except clauses Hclauses e) as He.
  unfold silent, trace_of in *. destruct (except clauses e) as [o t'].
  cbn in *. now rewrite filter_app, Hbody, He.
Qed.

End Silent.

(** Reduce a silence goal to its primitive steps, following the shape of
    the program. *)
Ltac silence :=
  repeat
    match goal with
    | |- silent _ (bind _ _) => apply silent_bind; [| intros ?]
    | |- silent _ (ret _) => apply silent_ret
    | |- silent _ (raise _) => apply silent_raise
    | |- silent _ (emit _) => apply silent_emit; reflexivity
    | |- silent _ (when _ _) => apply silent_when
    | |- silent _ (try_except _ _) => apply silent_try_except
    | |- Forall _ (_ :: _) => apply Forall_cons; [cbn [snd]; intros ? |]
    | |- Forall _ [] => apply Forall_nil
    | |- silent _ (if ?b then _ else _) => destruct b
    | |- silent _ (match ?x with _ => _ end) => destruct x
    | |- silent _ _ =>
        progress unfold is_git_repo, stage_all_changes, get_git_diff,
          commit_changes, save_key_to_env, LLMClient, generate_commit_message,
          Prompt_ask, Confirm_ask, print_error, with_status, console_print
    end.

(** ** Sample runs *)

Example run_world_ok_print_only :
  run world_ok args_print_only =
  (Returned tt,
   [Call_is_git_repo; Call_stage_all_changes; Call_get_git_diff true;
    Call_LLMClient "gemini" None (Some "secret");
    Call_generate_commit_message "diff --git a/x b/x";
    Print "feat: add X"]).
Proof. reflexivity. Qed.

Example run_world_quota :
  run world_quota args_print_only =
  (Raised (Exit 12),
   [Call_is_git_repo; Call_stage_all_changes; Call_get_git_diff true;
    Call_LLMClient "gemini" None (Some "secret");
    Call_generate_commit_message "diff --git a/x b/x";
    ConsolePrint Stderr
      (Markup "[bold red]Error:[/bold red] [QUOTA_EXCEEDED] quota exceeded")]).
Proof. reflexivity. Qed.

Example run_world_outside_repo :
  run world_outside_repo args_default =
  (Raised (Exit 1),
   [Call_is_git_repo;
    ConsolePrint Stderr
      (Markup "[bold red]Error:[/bold red] [NOT_GIT_REPO] Not a git repository. Please run this command inside a git repository.")]).
Proof. reflexivity. Qed.

(** ** The no-changes exit *)

(** C4: when the repository is valid, staging succeeds and the staged diff
    comes back empty, the process exits with code 3 and the backend is
    neither constructed nor invoked. *)
Theorem empty_diff_exits_no_changes (w : World) (a : Args) :
  repo_valid w = true -> stage_ok w = true -> diff_of w true = EmptyString ->
  exit_code (run w a) = 3%Z
  /\ EXIT_NO_CHANGES = 3%Z
  /\ filter is_backend (trace_of (run w a)) = [].
Proof.
  intros Hrepo Hstage Hdiff. unfold_run.
  destruct (print_only a); exec; auto.
Qed.

Lemma empty_diff_exits_no_changes_witness :
  exit_code (run world_clean_tree args_default) = 3%Z
  /\ EXIT_NO_CHANGES = 3%Z
  /\ filter is_backend (trace_of (run world_clean_tree args_default)) = [].
Proof.
  apply (empty_diff_exits_no_changes world_clean_tree args_default);
    reflexivity.
Defined.

(** ** Print-only mode *)

(** C3: in print-only mode, when the run gets as far as credential
    resolution and no credential is configured, the process exits with code
    10, the user is never prompted and nothing is written to standard
    output. *)
Theorem print_only_missing_key (w : World) (a : Args) :
  print_only a = true ->
  reaches_credentials w a ->
  truthy (GEMINI_API_KEY w) = false ->
  exit_code (run w a) = 10%Z
  /\ count is_prompt (trace_of (run w a)) = 0
  /\ stdout_of (trace_of (run w a)) = [].
Proof.
  intros Hpo (Hrepo & Hstage & Hdiff & Hprov) Hkey. unfold_run.
  rewrite Hprov. exec; auto; discriminate.
Qed.

Lemma print_only_missing_key_witness :
  exit_code (run world_no_key args_print_only) = 10%Z
  /\ count is_prompt (trace_of (run world_no_key args_print_only)) = 0
  /\ stdout_of (trace_of (run world_no_key args_print_only)) = [].
Proof.
  apply (print_only_missing_key world_no_key args_print_only);
    repeat split; reflexivity.
Defined.

(** C2: in print-only mode, when the repository check, staging, diff,
    provider check, credential lookup and generation all succeed, standard
    output receives exactly one write, the [print] of the generated message;
    the process exits with code 0, nothing is committed and the user is asked
    neither to confirm nor for a key. *)
Theorem print_only_success (w : World) (a : Args) (message : string) :
  print_only a = true ->
  reaches_credentials w a ->
  truthy (GEMINI_API_KEY w) = true ->
  client_init w (provider a) (model a) (GEMINI_API_KEY w) = None ->
  client_reply w (provider a) (model a) (GEMINI_API_KEY w) (diff_of w true)
    = Returned message ->
  stdout_of (trace_of (run w a)) = [Print message]
  /\ exit_code (run w a) = 0%Z
  /\ count is_commit (trace_of (run w a)) = 0
  /\ count is_confirm (trace_of (run w a)) = 0
  /\ count is_prompt (trace_of (run w a)) = 0.
Proof.
  intros Hpo (Hrepo & Hstage & Hdiff & Hprov) Hkey Hinit Hreply.
  unfold_run. rewrite Hprov in *. exec. auto.
Qed.

Lemma print_only_success_witness :
  stdout_of (trace_of (run world_ok args_print_only)) = [Print "feat: add X"]
  /\ exit_code (run world_ok args_print_only) = 0%Z
  /\ count is_commit (trace_of (run world_ok args_print_only)) = 0
  /\ count is_confirm (trace_of (run world_ok args_print_only)) = 0
  /\ count is_prompt (trace_of (run world_ok args_print_only)) = 0.
Proof.
  apply (print_only_success world_ok args_print_only "feat: add X");
    repeat split; reflexivity.
Defined.

(** ** Credential resolution in interactive mode *)


(** C6: in interactive mode, when the run gets as far as credential
    resolution and no credential is configured, the user is prompted exactly
    once.  An empty entry ends the run with code 10, nothing persisted and no
    backend built.  A non-empty entry is handed to [save_key_to_env] under
    the key's name, once, and the backend is constructed with the entry and,
    unless its constructor raises, asked for a message on the staged diff. *)
Theorem interactive_prompt_once (w : World) (a : Args) :
  print_only a = false ->
  reaches_credentials w a ->
  truthy (GEMINI_API_KEY w) = false ->
  count is_prompt (trace_of (run w a)) = 1
  /\ In (PromptAsk Stderr (key_prompt (provider a)) true) (trace_of (run w a))
  /\ (prompt_reply w (key_prompt (provider a)) = EmptyString ->
      exit_code (run w a) = 10%Z
      /\ filter is_save_key (trace_of (run w a)) = []
      /\ filter is_backend (trace_of (run w a)) = [])
  /\ (prompt_reply w (key_prompt (provider a)) <> EmptyString ->
      filter is_save_key (trace_of (run w a))
        = [Call_save_key_to_env "GEMINI_API_KEY"
             (prompt_reply w (key_prompt (provider a)))]
      /\ In (Call_LLMClient (provider a) (model a)
               (Some (prompt_reply w (key_prompt (provider a)))))
            (trace_of (run w a))
      /\ (client_init w (provider a) (model a)
            (Some (prompt_reply w (key_prompt (provider a)))) = None ->
          In (Call_generate_commit_message (diff_of w true))
            (trace_of (run w a)))).
Proof.
  intros Hpo (Hrepo & Hstage & Hdiff & Hprov) Hkey.
  unfold_run. rewrite Hprov in *.
  destruct (prompt_reply w "Please enter your gemini API Key") as [|c entry]
    eqn:Hentry.
  - exec; finish.
  - exec; finish.
Qed.

Lemma interactive_prompt_once_witness :
  count is_prompt (trace_of (run world_persist_fails args_default)) = 1
  /\ filter is_save_key (trace_of (run world_persist_fails args_default))
     = [Call_save_key_to_env "GEMINI_API_KEY" "entered"]
  /\ In (Call_LLMClient "gemini" None (Some "entered"))
        (trace_of (run world_persist_fails args_default)).
Proof.
  assert (H := interactive_prompt_once world_persist_fails args_default
                 eq_refl (conj eq_refl (conj eq_refl (conj eq_refl eq_refl)))
                 eq_refl).
  destruct H as (Hcount & _ & _ & Hentered).
  destruct Hentered as (Hsave & Hclient & _); [discriminate|].
  exact (conj Hcount (conj Hsave Hclient)).
Defined.

(** C10: in interactive mode, when the user enters a non-empty key at the
    prompt, what [save_key_to_env] returns is never looked at: whatever the
    persist operation answers, and so also when it fails, the run is the one
    of a world where it succeeds, the success notice is printed, and the
    backend is constructed with the entered value. *)
Theorem persist_result_ignored (w : World) (a : Args) :
  print_only a = false ->
  reaches_credentials w a ->
  truthy (GEMINI_API_KEY w) = false ->
  prompt_reply w (key_prompt (provider a)) <> EmptyString ->
  run w a = run (set_persist_ok (fun _ _ => true) w) a
  /\ In (Call_save_key_to_env "GEMINI_API_KEY"
           (prompt_reply w (key_prompt (provider a))))
        (trace_of (run w a))
  /\ In (ConsolePrint Stderr
           (Markup "[green]API Key saved successfully to .env[/green]"))
        (trace_of (run w a))
  /\ In (Call_LLMClient (provider a) (model a)
           (Some (prompt_reply w (key_prompt (provider a)))))
        (trace_of (run w a)).
Proof.
  intros Hpo (Hrepo & Hstage & Hdiff & Hprov) Hkey Hentry.
  split; [reflexivity|].
  unfold_run. rewrite Hprov in *. cbn in Hentry.
  destruct (prompt_reply w "Please enter your gemini API Key") as [|c entry]
    eqn:Hreply; [congruence|].
  exec; finish.
Qed.

Lemma persist_result_ignored_witness :
  persist_ok world_persist_fails "GEMINI_API_KEY" "entered" = false
  /\ run world_persist_fails args_default
     = run (set_persist_ok (fun _ _ => true) world_persist_fails) args_default
  /\ In (ConsolePrint Stderr
           (Markup "[green]API Key saved successfully to .env[/green]"))
        (trace_of (run world_persist_fails args_default))
  /\ In (Call_LLMClient "gemini" None (Some "entered"))
        (trace_of (run world_persist_fails args_default)).
Proof.
  assert (H := persist_result_ignored world_persist_fails args_default
                 eq_refl (conj eq_refl (conj eq_refl (conj eq_refl eq_refl)))
                 eq_refl).
  destruct H as (Hsame & _ & Hnotice & Hclient); [discriminate|].
  exact (conj eq_refl (conj Hsame (conj Hnotice Hclient))).
Defined.

(** ** Confirmation and commit *)

(** C7: in interactive mode, once the generated message has been displayed
    (the confirmation step is reached): if the accept flag is unset and the
    user declines, nothing is committed and the process exits with code 0;
    if the flag is set or the user accepts, and the commit of the message
    fails, the process exits with code 20. *)
Theorem confirmation_step (w : World) (a : Args) (message : string) :
  print_only a = false ->
  In (ConsolePrint Stderr (Panel message "Generated Commit Message" "green"))
     (trace_of (run w a)) ->
  (yes a = false -> confirm_reply w confirm_prompt = false ->
   count is_commit (trace_of (run w a)) = 0
   /\ exit_code (run w a) = 0%Z)
  /\ (yes a = true \/ confirm_reply w confirm_prompt = true ->
      commit_ok w message = false ->
      In (Call_commit_changes message) (trace_of (run w a))
      /\ exit_code (run w a) = 20%Z).
Proof.
  intros Hpo Hpanel. unfold_run.
  split; [intros Hyes Hconfirm | intros [Hyes | Hconfirm] Hcommit];
    exec; invert_in; exec; finish.
Qed.

Lemma confirmation_step_witness :
  (count is_commit (trace_of (run world_ok args_default)) = 0
   /\ exit_code (run world_ok args_default) = 0%Z)
  /\ (In (Call_commit_changes "feat: add X")
         (trace_of (run world_persist_fails args_default))
      /\ exit_code (run world_persist_fails args_default) = 20%Z).
Proof.
  split.
  - apply (confirmation_step world_ok args_default "feat: add X");
      [reflexivity | in_trace | reflexivity | reflexivity].
  - apply (confirmation_step world_persist_fails args_default "feat: add X");
      [reflexivity | in_trace | right; reflexivity | reflexivity].
Defined.

(** ** Exit codes of backend errors *)






(** ** Unsupported providers *)




(** ** The staged flag *)

(** C8: the staged flag is inert.  Two invocations that differ only in it
    run identically; whenever the diff is read it is read with staged=true,
    after all changes have been staged; and the diff handed to the backend
    is that staged diff. *)
Theorem staged_flag_inert (w : World) (a : Args) (b : bool) :
  run w (set_staged b a) = run w a
  /\ (forall st, In (Call_get_git_diff st) (trace_of (run w a)) ->
        st = true
        /\ before Call_stage_all_changes (Call_get_git_diff st)
             (trace_of (run w a)))
  /\ (forall d, In (Call_generate_commit_message d) (trace_of (run w a)) ->
        d = diff_of w true).
Proof.
  split; [reflexivity|]. split.
  - intros st Hin. unfold before. unfold_run.
    destruct (print_only a); exec; invert_in;
      (split; [reflexivity|]);
      first
        [ exists [Call_is_git_repo], []; eexists; reflexivity
        | exists [Call_is_git_repo;
                  ConsoleStatus Stderr
                    "[bold green]Staging all changes...[/bold green]"],
                 [ConsoleStatus Stderr
                    "[bold green]Reading staged changes...[/bold green]"];
          eexists; reflexivity ].
  - intros d Hin. unfold_run. exec; invert_in; reflexivity.
Qed.

Lemma staged_flag_inert_witness :
  run world_ok (set_staged false args_default) = run world_ok args_default
  /\ before Call_stage_all_changes (Call_get_git_diff true)
       (trace_of (run world_ok args_default))
  /\ "diff --git a/x b/x" = diff_of world_ok true.
Proof.
  destruct (staged_flag_inert world_ok args_default false)
    as (Hsame & Hdiff & Hgen).
  split; [exact Hsame|]. split.
  - apply (Hdiff true). in_trace.
  - apply Hgen. in_trace.
Defined.

(** ** Standard output *)

(** When nothing reached standard output, every event that wrote anything
    wrote to the error stream. *)
Lemma stdout_empty_all_stderr (tr : Trace) :
  stdout_of tr = [] ->
  forall ev s, In ev tr -> stream_of ev = Some s -> s = Stderr.
Proof.
  intros Hempty ev s Hin Hs. destruct s; [exfalso | reflexivity].
  assert (Hout : In ev (stdout_of tr)).
  { apply filter_In. split; [exact Hin|]. unfold writes_stdout. now rewrite Hs. }
  rewrite Hempty in Hout. exact Hout.
Qed.

(** C9: a run without the print-only flag writes nothing to standard output,
    whichever path it takes: every event of the run that writes (status
    lines, the message panel, notices, diagnostics, prompts) writes to the
    error stream.  In the whole program the only write to
    standard output is the [print] of the backend's message in print-only
    mode: any run leaves standard output empty or, in print-only mode, with
    that one write; [version] writes to the error stream. *)
Theorem stdout_reserved_for_print_only (w : World) (a : Args) :
  (print_only a = false ->
   stdout_of (trace_of (run w a)) = []
   /\ forall ev s, In ev (trace_of (run w a)) -> stream_of ev = Some s ->
                   s = Stderr)
  /\ (stdout_of (trace_of (run w a)) = []
      \/ (print_only a = true
          /\ exists message,
               stdout_of (trace_of (run w a)) = [Print message]
               /\ backend_returned w (trace_of (run w a)) message))
  /\ stdout_of (trace_of version) = []
  /\ trace_of version = [ConsolePrint Stderr (Markup "Auto-Commit v1.0.0")].
Proof.
  split; [|split; [|split; reflexivity]].
  - intros Hpo.
    assert (Hquiet : silent writes_stdout (run w a)).
    { unfold run, generate. rewrite Hpo. cbv beta iota delta [negb].
      silence. }
    split; [exact Hquiet | exact (stdout_empty_all_stderr _ Hquiet)].
  - unfold backend_returned. unfold_run.
    exec;
      first
        [ left; reflexivity
        | right; split; [reflexivity|]; eexists; split; [reflexivity|];
          do 4 eexists; repeat split;
          [ in_trace | eassumption | in_trace | eassumption ] ].
Qed.

Lemma stdout_reserved_for_print_only_witness :
  stdout_of (trace_of (run world_persist_fails args_default)) = []
  /\ stdout_of (trace_of version) = [].
Proof.
  destruct (stdout_reserved_for_print_only world_persist_fails args_default)
    as (Hinteractive & _ & Hversion & _).
  destruct (Hinteractive eq_refl) as (Hquiet & _).
  exact (conj Hquiet Hversion).
Defined.

(** * Further properties of the pipeline *)

(** ** Executing one copy of a run *)

Ltac branch_in H :=
  match type of H with
  | context [match ?x with _ => _ end] => settle x
  end.

(** Name the run, execute it to each of its ends, and put the outcome and
    the trace found there back in place. *)
Ltac exec_run w a :=
  let r := fresh "r" in
  let Hr := fresh "Hr" in
  remember (run w a) as r eqn:Hr;
  unfold run, generate, is_git_repo, stage_all_changes, get_git_diff,
    commit_changes, save_key_to_env, LLMClient, generate_commit_message,
    Prompt_ask, Confirm_ask, print, print_error, with_status, console_print,
    when in Hr;
  repeat (cbn -[String.eqb] in Hr; try branch_in Hr);
  subst r;
  unfold exit_code, trace_of, stdout_of, count, key_prompt, confirm_prompt,
    last_event, is_error_line, error_label, exit_codes in *;
  cbn -[String.eqb] in *.

(** Settle the provider test before the run. *)
Ltac provider_cases a :=
  let E := fresh "Hprovider" in
  destruct (String.eqb_spec (provider a) "gemini") as [E | E];
  [ | apply String.eqb_neq in E ].

(** Close a leaf, also from the facts gathered on the way. *)
Ltac close :=
  finish; try assumption; try (cbn in *; first [assumption | congruence]).

(** Identify what the world answered with what a hypothesis says it
    answered. *)
Ltac same_answer :=
  repeat match goal with
    | H1 : ?x = _, H2 : ?x = _ |- _ =>
        rewrite H1 in H2; (discriminate H2 || (injection H2 as ?; subst))
    end.

(** The two ways the backend can have raised. *)
Ltac backend_cases Hcase :=
  let Hc := fresh "Hc" in
  let d := fresh "d" in
  let Hd := fresh "Hd" in
  let Hr := fresh "Hr" in
  destruct Hcase as [Hc | (Hc & d & Hd & Hr)]; cbn in *; invert_in;
  same_answer; cbn in *; try discriminate.

(** A backend that never raises [typer.Exit] did not just do so. *)
Ltac no_backend_exit H :=
  try solve [ exfalso; destruct H as [Hinit Hreply];
              first [ eapply Hinit; eassumption | eapply Hreply; eassumption ] ].

(** Case analysis on the exceptions the world raised. *)
Ltac exn_cases :=
  repeat match goal with
    | e : exn |- _ => destruct e; cbn in *; try discriminate
    | k : LLMErrorClass |- _ => destruct k; cbn in *; try discriminate
    end.

(** ** Early exits *)

(** X1: outside a repository the run stops at once: the repository check and
    the diagnostic are all that happens (nothing is staged, no diff is read,
    nobody is prompted, no backend is built), and the exit code is 1. *)
Theorem not_a_repository_stops_at_once (w : World) (a : Args) :
  repo_valid w = false ->
  exit_code (run w a) = 1%Z
  /\ trace_of (run w a)
     = [Call_is_git_repo;
        ConsolePrint Stderr
          (Markup (error_label ++ "[NOT_GIT_REPO] Not a git repository. Please run this command inside a git repository."))].
Proof.
  intros Hrepo. exec_run w a. split; reflexivity.
Qed.

Lemma not_a_repository_stops_at_once_witness :
  exit_code (run world_outside_repo args_openai) = 1%Z
  /\ trace_of (run world_outside_repo args_openai)
     = [Call_is_git_repo;
        ConsolePrint Stderr
          (Markup (error_label ++ "[NOT_GIT_REPO] Not a git repository. Please run this command inside a git repository."))].
Proof.
  apply (not_a_repository_stops_at_once world_outside_repo args_openai).
  reflexivity.
Defined.

(** X2: when staging fails inside a repository the process exits with code
    2 before the diff is read: no diff call, no prompt, no backend, nothing
    on standard output, whatever the flags and the provider. *)
Theorem stage_failure_exits_2 (w : World) (a : Args) :
  repo_valid w = true -> stage_ok w = false ->
  exit_code (run w a) = 2%Z
  /\ count is_diff (trace_of (run w a)) = 0
  /\ count is_prompt (trace_of (run w a)) = 0
  /\ filter is_backend (trace_of (run w a)) = []
  /\ stdout_of (trace_of (run w a)) = []
  /\ In (ConsolePrint Stderr
           (Markup (error_label ++ "[STAGE_FAILED] Failed to stage changes.")))
        (trace_of (run w a)).
Proof.
  intros Hrepo Hstage. exec_run w a; finish.
Qed.

Lemma stage_failure_exits_2_witness :
  exit_code (run world_stage_fails args_print_only) = 2%Z
  /\ count is_diff (trace_of (run world_stage_fails args_print_only)) = 0
  /\ count is_prompt (trace_of (run world_stage_fails args_print_only)) = 0
  /\ filter is_backend (trace_of (run world_stage_fails args_print_only)) = []
  /\ stdout_of (trace_of (run world_stage_fails args_print_only)) = []
  /\ In (ConsolePrint Stderr
           (Markup (error_label ++ "[STAGE_FAILED] Failed to stage changes.")))
        (trace_of (run world_stage_fails args_print_only)).
Proof.
  apply (stage_failure_exits_2 world_stage_fails args_print_only);
    reflexivity.
Defined.

(** X3: inside a repository all changes are staged on every run, before
    anything is validated: also in print-only mode, with an unsupported
    provider or without a key.  When staging works the staged diff is read
    as well. *)
Theorem staging_precedes_validation (w : World) (a : Args) :
  repo_valid w = true ->
  In Call_stage_all_changes (trace_of (run w a))
  /\ (stage_ok w = true -> In (Call_get_git_diff true) (trace_of (run w a))).
Proof.
  intros Hrepo. exec_run w a; close.
Qed.

Lemma staging_precedes_validation_witness :
  In Call_stage_all_changes (trace_of (run world_no_key args_openai))
  /\ In (Call_get_git_diff true) (trace_of (run world_no_key args_openai)).
Proof.
  destruct (staging_precedes_validation world_no_key args_openai eq_refl)
    as (Hstage & Hdiff).
  exact (conj Hstage (Hdiff eq_refl)).
Defined.

(** ** The backend's inputs *)

(** X4: the backend is only ever constructed for the provider 'gemini',
    with the model given on the command line and a non-empty key, inside a
    repository whose staging worked; and it is only ever asked about a
    non-empty diff, the staged one. *)
Theorem backend_inputs_validated (w : World) (a : Args) :
  (forall p m k, In (Call_LLMClient p m k) (trace_of (run w a)) ->
     p = "gemini" /\ provider a = "gemini" /\ m = model a
     /\ truthy k = true
     /\ repo_valid w = true /\ stage_ok w = true)
  /\ (forall d, In (Call_generate_commit_message d) (trace_of (run w a)) ->
        d = diff_of w true /\ truthy_str d = true).
Proof.
  split; [intros p m k Hin | intros d Hin];
    provider_cases a; exec_run w a; invert_in; close.
Qed.

Lemma backend_inputs_validated_witness :
  "gemini" = "gemini" /\ provider args_default = "gemini"
  /\ None = model args_default /\ truthy (Some "secret") = true
  /\ repo_valid world_ok = true /\ stage_ok world_ok = true.
Proof.
  apply (proj1 (backend_inputs_validated world_ok args_default)
           "gemini" None (Some "secret")).
  in_trace.
Defined.

(** ** Credentials *)

(** X5: a configured key is used as it is: the user is not prompted, nothing
    is persisted, and any backend built is built with the configured key. *)
Theorem configured_key_is_used (w : World) (a : Args) :
  truthy (GEMINI_API_KEY w) = true ->
  count is_prompt (trace_of (run w a)) = 0
  /\ filter is_save_key (trace_of (run w a)) = []
  /\ (forall p m k, In (Call_LLMClient p m k) (trace_of (run w a)) ->
        k = GEMINI_API_KEY w).
Proof.
  intros Hkey. exec_run w a; repeat split; try reflexivity;
    intros p m k Hin; cbn in Hin; invert_in; close.
Qed.

Lemma configured_key_is_used_witness :
  count is_prompt (trace_of (run world_ok args_default)) = 0
  /\ filter is_save_key (trace_of (run world_ok args_default)) = []
  /\ Some "secret" = GEMINI_API_KEY world_ok.
Proof.
  destruct (configured_key_is_used world_ok args_default eq_refl)
    as (Hprompt & Hsave & Hkey).
  refine (conj Hprompt (conj Hsave (Hkey "gemini" None (Some "secret") _))).
  in_trace.
Defined.

(** X6: the only prompt of the pipeline is the key prompt: it is shown on
    the error stream with hidden input, names the provider, and appears only
    in interactive mode when no key is configured. *)
Theorem key_prompt_is_hidden (w : World) (a : Args) (f : Stream)
    (prompt : string) (password : bool) :
  In (PromptAsk f prompt password) (trace_of (run w a)) ->
  f = Stderr /\ password = true /\ prompt = key_prompt (provider a)
  /\ print_only a = false /\ truthy (GEMINI_API_KEY w) = false.
Proof.
  intros Hin. provider_cases a; exec_run w a; invert_in;
    try rewrite Hprovider; close.
Qed.

Lemma key_prompt_is_hidden_witness :
  Stderr = Stderr /\ true = true
  /\ "Please enter your gemini API Key" = key_prompt (provider args_default)
  /\ print_only args_default = false
  /\ truthy (GEMINI_API_KEY world_no_key) = false.
Proof.
  apply (key_prompt_is_hidden world_no_key args_default). in_trace.
Defined.

(** ** Print-only mode is non-interactive *)

(** X7: in print-only mode the run never prompts, never asks to confirm,
    never commits, never persists a key, shows no spinner and no panel, on
    every path; and the accept flag makes no difference to it. *)
Theorem print_only_is_non_interactive (w : World) (a : Args) :
  print_only a = true ->
  count is_prompt (trace_of (run w a)) = 0
  /\ count is_confirm (trace_of (run w a)) = 0
  /\ count is_commit (trace_of (run w a)) = 0
  /\ count is_save_key (trace_of (run w a)) = 0
  /\ count is_status (trace_of (run w a)) = 0
  /\ count is_panel (trace_of (run w a)) = 0
  /\ (forall b, run w (set_yes b a) = run w a).
Proof.
  intros Hpo.
  assert (Hquiet : forall p,
             In p [is_prompt; is_confirm; is_commit; is_save_key; is_status;
                   is_panel] ->
             silent p (run w a)).
  { intros p Hp. unfold run, generate. rewrite Hpo.
    cbv beta iota delta [negb].
    cbn in Hp; repeat (destruct Hp as [<- | Hp]); try contradiction;
      silence; unfold print; silence. }
  unfold count.
  repeat split; try (rewrite Hquiet; [reflexivity | in_trace]).
  intros b. unfold run, set_yes. cbn [provider model yes staged print_only].
  unfold generate. rewrite Hpo. reflexivity.
Qed.

Lemma print_only_is_non_interactive_witness :
  count is_prompt (trace_of (run world_no_key args_print_only)) = 0
  /\ count is_confirm (trace_of (run world_no_key args_print_only)) = 0
  /\ count is_commit (trace_of (run world_no_key args_print_only)) = 0
  /\ count is_save_key (trace_of (run world_no_key args_print_only)) = 0
  /\ count is_status (trace_of (run world_no_key args_print_only)) = 0
  /\ count is_panel (trace_of (run world_no_key args_print_only)) = 0.
Proof.
  destruct (print_only_is_non_interactive world_no_key args_print_only
              eq_refl) as (H1 & H2 & H3 & H4 & H5 & H6 & _).
  exact (conj H1 (conj H2 (conj H3 (conj H4 (conj H5 H6))))).
Defined.

(** ** The exit-code contract *)

(** X8: provided the backend does not itself raise [typer.Exit], every run
    ends with one of the ten exit codes the module defines. *)
Theorem exit_code_is_defined (w : World) (a : Args) :
  backend_never_exits w ->
  In (exit_code (run w a)) exit_codes.
Proof.
  intros Hbackend. exec_run w a; exn_cases; no_backend_exit Hbackend;
    in_trace.
Qed.

Lemma exit_code_is_defined_witness :
  In (exit_code (run world_crash args_default)) exit_codes.
Proof.
  apply (exit_code_is_defined world_crash args_default).
  split; intros; discriminate.
Defined.



(** ** One attempt at everything *)

Lemma run_once_only (w : World) (a : Args) :
  once_only (trace_of (run w a)) = true.
Proof.
  remember (run w a) as r eqn:Hr.
  unfold run, generate, is_git_repo, stage_all_changes, get_git_diff,
    commit_changes, save_key_to_env, LLMClient, generate_commit_message,
    Prompt_ask, Confirm_ask, print, print_error, with_status, console_print,
    when in Hr.
  repeat (cbn -[String.eqb] in Hr; try branch_in Hr); subst r; reflexivity.
Qed.

(** X10: a run checks the repository exactly once and does everything else
    at most once: staging, reading the diff, prompting, persisting,
    constructing the backend, asking it, showing the message, confirming,
    committing.  Nothing is retried. *)
Theorem nothing_is_retried (w : World) (a : Args) :
  count is_repo_check (trace_of (run w a)) = 1
  /\ Forall (fun p => count p (trace_of (run w a)) <= 1)
       [is_stage; is_diff; is_prompt; is_save_key; is_construct; is_generate;
        is_panel; is_confirm; is_commit].
Proof.
  pose proof (run_once_only w a) as H. unfold once_only in H.
  apply andb_true_iff in H. destruct H as [Hrepo Hrest].
  split.
  - now apply Nat.eqb_eq.
  - apply Forall_forall. intros p Hp. apply Nat.leb_le.
    exact (proj1 (forallb_forall _ _) Hrest p Hp).
Qed.

(** ** Commits *)

Lemma before_here (x y : Event) (l : Trace) : In y l -> before x y (x :: l).
Proof.
  intros Hin. apply in_split in Hin. destruct Hin as (l1 & l2 & ->).
  exists [], l1, l2. reflexivity.
Qed.

Lemma before_later (x y z : Event) (l : Trace) :
  before x y l -> before x y (z :: l).
Proof.
  intros (t1 & t2 & t3 & ->). exists (z :: t1), t2, t3. reflexivity.
Qed.

(** Order of two events in an explicit trace, by looking. *)
Ltac ordered :=
  solve [ cbn; repeat first [ apply before_here; in_trace
                            | apply before_later ] ].

(** X11: a commit is only ever made in interactive mode, with the message
    the backend returned, after that message has been displayed, and only
    when the accept flag is set or the user confirmed. *)
Theorem commit_provenance (w : World) (a : Args) (message : string) :
  In (Call_commit_changes message) (trace_of (run w a)) ->
  print_only a = false
  /\ backend_returned w (trace_of (run w a)) message
  /\ (yes a = true \/ confirm_reply w confirm_prompt = true)
  /\ before (ConsolePrint Stderr
               (Panel message "Generated Commit Message" "green"))
       (Call_commit_changes message) (trace_of (run w a)).
Proof.
  intros Hin. unfold backend_returned.
  exec_run w a; invert_in;
    (split; [reflexivity|]; split;
     [ do 4 eexists; repeat split;
       [ in_trace | eassumption | in_trace | eassumption ]
     | split;
       [ first [ left; reflexivity | right; reflexivity | right; assumption ]
       | ordered ] ]).
Qed.

Lemma commit_provenance_witness :
  print_only args_default = false
  /\ backend_returned world_persist_fails
       (trace_of (run world_persist_fails args_default)) "feat: add X"
  /\ (yes args_default = true
      \/ confirm_reply world_persist_fails confirm_prompt = true)
  /\ before (ConsolePrint Stderr
               (Panel "feat: add X" "Generated Commit Message" "green"))
       (Call_commit_changes "feat: add X")
       (trace_of (run world_persist_fails args_default)).
Proof.
  apply (commit_provenance world_persist_fails args_default "feat: add X").
  in_trace.
Defined.

(** X12: in interactive mode, once the message has been displayed, if the
    accept flag is set or the user confirms, and the commit works, the
    message is committed exactly once, the success notice is printed and the
    exit code is 0; with the accept flag set the user is not asked. *)
Theorem accepted_message_is_committed (w : World) (a : Args)
    (message : string) :
  print_only a = false ->
  In (ConsolePrint Stderr (Panel message "Generated Commit Message" "green"))
     (trace_of (run w a)) ->
  yes a = true \/ confirm_reply w confirm_prompt = true ->
  commit_ok w message = true ->
  exit_code (run w a) = 0%Z
  /\ filter is_commit (trace_of (run w a)) = [Call_commit_changes message]
  /\ In (ConsolePrint Stderr
           (Markup "[bold green]Success![/bold green] Changes committed."))
        (trace_of (run w a))
  /\ (yes a = true -> count is_confirm (trace_of (run w a)) = 0).
Proof.
  intros Hpo Hpanel Haccept Hcommit. unfold confirm_prompt in Haccept.
  exec_run w a; invert_in; destruct Haccept; same_answer;
    try congruence; close.
Qed.

Lemma accepted_message_is_committed_witness :
  exit_code (run world_ok args_yes) = 0%Z
  /\ filter is_commit (trace_of (run world_ok args_yes))
     = [Call_commit_changes "feat: add X"]
  /\ In (ConsolePrint Stderr
           (Markup "[bold green]Success![/bold green] Changes committed."))
        (trace_of (run world_ok args_yes))
  /\ count is_confirm (trace_of (run world_ok args_yes)) = 0.
Proof.
  destruct (accepted_message_is_committed world_ok args_yes "feat: add X")
    as (Hexit & Hcommit & Hnotice & Hconfirm);
    [reflexivity | in_trace | left; reflexivity | reflexivity |].
  exact (conj Hexit (conj Hcommit (conj Hnotice (Hconfirm eq_refl)))).
Defined.

(** ** Failures of the backend *)





(** X15: when the backend raises anything at all, the message panel is never
    shown, the user is not asked to confirm, nothing is committed and
    nothing reaches standard output; and unless what it raised is
    [typer.Exit(0)], the exit code is not 0. *)
Theorem backend_failure_stops_the_run (w : World) (a : Args) (e : exn) :
  backend_raised w (trace_of (run w a)) e ->
  count is_panel (trace_of (run w a)) = 0
  /\ count is_confirm (trace_of (run w a)) = 0
  /\ count is_commit (trace_of (run w a)) = 0
  /\ stdout_of (trace_of (run w a)) = []
  /\ (e <> Exit 0 -> exit_code (run w a) <> 0%Z).
Proof.
  intros (p & m & k & Hin & Hcase).
  exec_run w a; invert_in; backend_cases Hcase;
    (repeat split; try reflexivity; intros Hexit Hcode;
     exn_cases; first [ discriminate Hcode | congruence ]).
Qed.

Lemma backend_failure_stops_the_run_witness :
  count is_panel (trace_of (run world_quota args_yes)) = 0
  /\ count is_confirm (trace_of (run world_quota args_yes)) = 0
  /\ count is_commit (trace_of (run world_quota args_yes)) = 0
  /\ stdout_of (trace_of (run world_quota args_yes)) = []
  /\ exit_code (run world_quota args_yes) <> 0%Z.
Proof.
  destruct (backend_failure_stops_the_run world_quota args_yes
              (LLMError APIQuotaExceededError "quota exceeded"
                 (Some "QUOTA_EXCEEDED")))
    as (H1 & H2 & H3 & H4 & H5).
  - exists "gemini", None, (Some "secret"). split; [in_trace|].
    right. split; [reflexivity|].
    exists "diff --git a/x b/x". split; [in_trace | reflexivity].
  - refine (conj H1 (conj H2 (conj H3 (conj H4 (H5 _))))). discriminate.
Defined.

(** ** What exit code 0 means *)

(** X16: provided the backend does not itself raise [typer.Exit], a run
    that exits with code 0 obtained a message from the backend: in
    print-only mode that message is what was printed, in interactive mode it
    is what was displayed, and then either committed or declined. *)
Theorem success_means_a_message (w : World) (a : Args) :
  backend_never_exits w ->
  exit_code (run w a) = 0%Z ->
  exists message,
    backend_returned w (trace_of (run w a)) message
    /\ (print_only a = true ->
        stdout_of (trace_of (run w a)) = [Print message])
    /\ (print_only a = false ->
        In (ConsolePrint Stderr
              (Panel message "Generated Commit Message" "green"))
           (trace_of (run w a))
        /\ (filter is_commit (trace_of (run w a))
              = [Call_commit_changes message]
            \/ last_event (trace_of (run w a))
               = Some (ConsolePrint Stderr
                         (Markup "[yellow]Operation aborted.[/yellow]")))).
Proof.
  intros Hbackend Hcode. unfold backend_returned.
  exec_run w a; exn_cases; no_backend_exit Hbackend;
    try (vm_compute in Hcode; discriminate Hcode);
    (eexists; split;
     [ do 4 eexists; repeat split;
       [ in_trace | eassumption | in_trace | eassumption ]
     | split; intros Hpo; try discriminate Hpo;
       first [ reflexivity
             | split; [ in_trace
                      | first [ left; reflexivity | right; reflexivity ] ] ] ]).
Qed.

Lemma success_means_a_message_witness :
  exists message,
    backend_returned world_ok (trace_of (run world_ok args_yes)) message
    /\ (print_only args_yes = true ->
        stdout_of (trace_of (run world_ok args_yes)) = [Print message])
    /\ (print_only args_yes = false ->
        In (ConsolePrint Stderr
              (Panel message "Generated Commit Message" "green"))
           (trace_of (run world_ok args_yes))
        /\ (filter is_commit (trace_of (run world_ok args_yes))
              = [Call_commit_changes message]
            \/ last_event (trace_of (run world_ok args_yes))
               = Some (ConsolePrint Stderr
                         (Markup "[yellow]Operation aborted.[/yellow]")))).
Proof.
  apply (success_means_a_message world_ok args_yes).
  - split; intros; discriminate.
  - reflexivity.
Defined.

(** ** The order of the steps *)

Lemma increasing_sorted (l : list nat) :
  increasing l = true -> StronglySorted lt l.
Proof.
  intros H. apply Sorted_StronglySorted; [exact Nat.lt_trans|].
  induction l as [| n rest IH]; [constructor|].
  cbn in H. destruct rest as [| m rest'].
  - repeat constructor.
  - apply andb_true_iff in H. destruct H as [Hlt Hrest].
    constructor; [exact (IH Hrest)|].
    constructor. now apply Nat.ltb_lt.
Qed.

Lemma run_increasing (w : World) (a : Args) :
  increasing (ranks (trace_of (run w a))) = true.
Proof.
  remember (run w a) as r eqn:Hr.
  unfold run, generate, is_git_repo, stage_all_changes, get_git_diff,
    commit_changes, save_key_to_env, LLMClient, generate_commit_message,
    Prompt_ask, Confirm_ask, print, print_error, with_status, console_print,
    when in Hr.
  repeat (cbn -[String.eqb] in Hr; try branch_in Hr); subst r; reflexivity.
Qed.

(** X17: the steps of a run happen in the order of the pipeline and none is
    repeated: repository check, staging, diff, key prompt, persisting the
    key, constructing the backend, generating, showing or printing the
    message, confirming, committing. *)
Theorem steps_follow_the_pipeline (w : World) (a : Args) :
  StronglySorted lt (ranks (trace_of (run w a))).
Proof. apply increasing_sorted, run_increasing. Qed.

(** ** Secrecy of the key *)

(** X18: the key is never shown.  Two runs that differ only in the value of
    the configured key and of the key entered at the prompt (present or
    absent alike), against a backend whose answers do not depend on the key,
    write exactly the same things to the streams and exit with the same
    code. *)
Theorem key_is_never_shown (w : World) (a : Args) (k1 k2 : option string)
    (e1 e2 : string) :
  truthy k1 = truthy k2 ->
  truthy_str e1 = truthy_str e2 ->
  outputs (trace_of (run (keyed k1 e1 w) a))
    = outputs (trace_of (run (keyed k2 e2 w) a))
  /\ exit_code (run (keyed k1 e1 w) a) = exit_code (run (keyed k2 e2 w) a).
Proof.
  intros Hk He.
  remember (run (keyed k1 e1 w) a) as r1 eqn:Hr1.
  remember (run (keyed k2 e2 w) a) as r2 eqn:Hr2.
  unfold run, generate, is_git_repo, stage_all_changes, get_git_diff,
    commit_changes, save_key_to_env, LLMClient, generate_commit_message,
    Prompt_ask, Confirm_ask, print, print_error, with_status, console_print,
    when in Hr1, Hr2.
  destruct k1 as [[| c1 s1] |], k2 as [[| c2 s2] |]; try discriminate Hk;
    destruct e1 as [| d1 t1], e2 as [| d2 t2]; try discriminate He;
    clear Hk He;
    repeat (cbn -[String.eqb] in Hr1, Hr2;
            try first [branch_in Hr1 | branch_in Hr2]);
    subst r1 r2; split; reflexivity.
Qed.

Lemma key_is_never_shown_witness :
  outputs (trace_of (run (keyed None "entered" world_ok) args_default))
    = outputs (trace_of (run (keyed (Some EmptyString) "typed" world_ok)
                          args_default))
  /\ exit_code (run (keyed None "entered" world_ok) args_default)
     = exit_code (run (keyed (Some EmptyString) "typed" world_ok)
                    args_default).
Proof.
  apply (key_is_never_shown world_ok args_default None (Some EmptyString)
           "entered" "typed"); reflexivity.
Defined.
